(** * CQRS dispatch buses: a shallow embedding of [src/core/cqrs/bus.ts]

    The command bus and the query bus look a request's constructor up in a
    bootstrap-built handler map, ask the DI container for the handler bound
    to the token found there and run it; the command bus wraps the run in a
    Unit-of-Work transaction.  Everything the buses call (container, Unit of
    Work, handlers) is an external collaborator: it is modelled as a record
    of state-passing functions over an arbitrary world state, and every call
    the bus makes is appended to a call history. *)

From Stdlib Require Import ZArith.
From stdpp Require Import base option list gmap strings.

Local Open Scope string_scope.

(** ** Values of the JavaScript runtime *)

(** A [Symbol()] value, used as a DI token: only its identity matters. *)
Definition symbol := positive.

(** The identity of a heap object (a constructor function, a handler
    instance, a Unit of Work). *)
Definition ref := positive.

Bind Scope positive_scope with symbol ref.

(** A value as the container can hand it out or as a [throw] can raise it:
    a primitive or a reference to an object. *)
Inductive JsValue :=
| JsUndefined
| JsNull
| JsBoolean (b : bool)
| JsNumber (n : Z)
| JsString (s : string)
| JsObject (r : ref).

(** A constructor function: its identity, which is what a [Map] compares
    keys by, and its [name] property. *)
Record Class := { class_ref : ref; name : string }.

(** A command or a query object that has a constructor.  [ICommand] and
    [IQuery] are empty marker interfaces; the buses read nothing of a
    request but its [constructor]. *)
Record Request (P : Type) := { constructor : Class; payload : P }.
Arguments constructor {P} _.
Arguments payload {P} _.

(** What a caller can pass to [execute].  [ICommand] and [IQuery] have no
    members, so besides the objects that have a [constructor] (the
    [Request]s) the buses can be handed an object without one, such as
    [Object.create(null)], whose [constructor] reads as [undefined], or
    [null] or [undefined], of which no property can be read. *)
Inductive Argument (P : Type) : Type :=
| Instance (request : Request P)
| NoConstructor (payload : P)
| Nullish.
Arguments Instance {P} request.
Arguments NoConstructor {P} payload.
Arguments Nullish {P}.

(** Modelled from the spec: [core/errors/http.error], of which the buses
    only have the import.  "[error] carries a classification (status-like
    code), a short title, and a detail message"; the buses build one with
    [new HttpError(code, title, detail)]. *)
Record HttpError := { code : Z; title : string; detail : string }.

(** Modelled from the spec: [core/base/result], of which the buses only
    have the import.  "Tagged union of exactly one of [Success(value: T)]
    or [Failure(error)]". *)
Inductive Result (T : Type) : Type :=
| Success (value : T)
| Failure (error : HttpError).
Arguments Success {T} value.
Arguments Failure {T} error.

(** What a [catch (error)] clause can receive, split the way the buses
    inspect it: [error instanceof HttpError], else [error instanceof Error]
    (of which only [message] is read), else any other thrown value, which
    is an instance of neither. *)
Inductive Thrown :=
| ThrowHttpError (e : HttpError)
| ThrowError (message : string)
| ThrowValue (v : JsValue).

(** The [TypeError] of reading a property of [undefined] or [null]; the
    wording is the engine's. *)
Definition TypeError_reading (property : string) : Thrown :=
  ThrowError ("Cannot read properties of undefined (reading '"
              ++ property ++ "')").

(** Completion of a call: it returns or it throws.  For an [async] function
    [Throw] is the rejection of the promise it returned. *)
Inductive outcome (A : Type) : Type :=
| Return (a : A)
| Throw (e : Thrown).
Arguments Return {A} a.
Arguments Throw {A} e.

Definition thrown_of {A} (o : outcome A) : option Thrown :=
  match o with Return _ => None | Throw e => Some e end.

(** ** The handler map *)

(** [type HandlerMap = Map<constructor, symbol>], keyed by the identity of
    the constructor.  The model has what the buses use of the [Map], its
    [get], and its [size]; the order in which a [Map] iterates its entries
    is not represented. *)
Abbreviation HandlerMap := (gmap ref symbol).

(** [new Map(mappings)] adds the entries in order with [Map.prototype.set]. *)
Definition createHandlerMap (mappings : list (Class * symbol)) : HandlerMap :=
  foldl (fun m p => <[class_ref p.1 := p.2]> m) ∅ mappings.

(** [new HttpError(500, 'Internal Server Error', message)] *)
Definition internal_server_error (message : string) : HttpError :=
  {| code := 500; title := "Internal Server Error"; detail := message |}.

(** ** Collaborators and the call history *)

Section Bus.

(** State of everything outside the bus: container bindings, the
    database, whatever the handlers close over. *)
Context {W : Type}.
(** Payload of requests and result values of handlers. *)
Context {P V : Type}.

(** The operations the buses call: [Container.get(token)], the three
    transaction methods of [IUnitOfWork] on the value the container gave
    for the Unit of Work, and [handle] of [ICommandHandler] and
    [IQueryHandler] on the value it gave for the handler.  Each one may
    change the world and either returns or throws; a method missing on the
    value it is called on is a throw of a [TypeError], which is an [Error].
    ([IUnitOfWork.getConnection] is for the handlers; no bus calls it.) *)
Record Collaborators := {
  Container_get : symbol -> W -> outcome JsValue * W;
  beginTransaction : JsValue -> W -> outcome unit * W;
  commit : JsValue -> W -> outcome unit * W;
  rollback : JsValue -> W -> outcome unit * W;
  handle : JsValue -> Request P -> W -> outcome V * W;
}.

(** A call made by a bus. *)
Inductive Call :=
| CallContainerGet (token : symbol)
| CallBeginTransaction (uow : JsValue)
| CallCommit (uow : JsValue)
| CallRollback (uow : JsValue)
| CallHandle (handler : JsValue) (request : Request P).

(** A call together with what it threw, if it did. *)
Record Event := { call : Call; thrown : option Thrown }.

(** The bus monad: world and call history are threaded, exceptions
    short-circuit. *)
Definition BusM (A : Type) : Type :=
  W * list Event -> outcome A * (W * list Event).

#[global] Instance BusM_ret : MRet BusM := fun A a s => (Return a, s).

#[global] Instance BusM_bind : MBind BusM := fun A B k m s =>
  match m s with
  | (Return a, s') => k a s'
  | (Throw e, s') => (Throw e, s')
  end.

(** [try { body } catch (error) { handler }] *)
Definition try_catch {A} (body : BusM A) (handler : Thrown -> BusM A) : BusM A :=
  fun s =>
    match body s with
    | (Return a, s') => (Return a, s')
    | (Throw e, s') => handler e s'
    end.

(** [throw e] *)
Definition throw {A} (e : Thrown) : BusM A := fun s => (Throw e, s).

(** Calling (and awaiting) a collaborator: run it on the world and record
    the call. *)
Definition invoke {A} (c : Call) (op : W -> outcome A * W) : BusM A :=
  fun s =>
    let '(o, w') := op s.1 in
    (o, (w', (s.2 ++ [{| call := c; thrown := thrown_of o |}])%list)).

Variable C : Collaborators.

(** [Container.get(token)] *)
Definition call_get (token : symbol) : BusM JsValue :=
  invoke (CallContainerGet token) (Container_get C token).
(** [await uow.beginTransaction()] *)
Definition call_beginTransaction (uow : JsValue) : BusM unit :=
  invoke (CallBeginTransaction uow) (beginTransaction C uow).
(** [await uow.commit()] *)
Definition call_commit (uow : JsValue) : BusM unit :=
  invoke (CallCommit uow) (commit C uow).
(** [await uow.rollback()] *)
Definition call_rollback (uow : JsValue) : BusM unit :=
  invoke (CallRollback uow) (rollback C uow).
(** [await handler.handle(request)] *)
Definition call_handle (handler : JsValue) (request : Request P) : BusM V :=
  invoke (CallHandle handler request) (handle C handler request).

(** ** Running a bus call *)

(** A call of [execute] starts from a world and an empty call history. *)
Definition run {A} (m : BusM A) (w : W) : outcome A * (W * list Event) :=
  m (w, []).

(** What the caller gets: a value or a raised fault. *)
Definition result_of {A} (m : BusM A) (w : W) : outcome A := (run m w).1.

(** The calls the bus made, in order, with their failures. *)
Definition history_of {A} (m : BusM A) (w : W) : list Event := (run m w).2.2.

(** The calls alone. *)
Definition calls_of {A} (m : BusM A) (w : W) : list Call :=
  call <$> history_of m w.

(** The world the call leaves behind. *)
Definition world_of {A} (m : BusM A) (w : W) : W := (run m w).2.1.

End Bus.

Arguments Collaborators : clear implicits.
Arguments Call : clear implicits.
Arguments Event : clear implicits.
Arguments BusM : clear implicits.

(** ** CommandBus *)

Module CommandBus.
Section CommandBus.

Context {W P V : Type}.
Variable C : Collaborators W P V.
(** [TOKENS.UnitOfWork]: the symbol is declared in [core/di/tokens] and
    taken as given here. *)
Variable TOKENS_UnitOfWork : symbol.
(** The [handlerMap] field of the bus, set by its constructor. *)
Variable handlerMap : HandlerMap.

(** The body of the [try] block of [execute]. *)
Definition try_block (uow : JsValue) (handlerToken : symbol)
    (command : Request P) : BusM W P (Result V) :=
  _ ← call_beginTransaction C uow;
  handler ← call_get C handlerToken;
  value ← call_handle C handler command;
  _ ← call_commit C uow;
  mret (Success value).

(** The [catch (error)] block of [execute]. *)
Definition catch_block (uow : JsValue) (error : Thrown) : BusM W P (Result V) :=
  _ ← call_rollback C uow;
  match error with
  | ThrowHttpError e => mret (Failure e)
  | _ =>
      mret (Failure (internal_server_error
        match error with
        | ThrowError message => message
        | _ => "An unknown command execution error occurred."
        end))
  end.

(** [execute(command)].  A token is a symbol and symbols are truthy, so
    [!handlerToken] holds exactly when the map has no entry. *)
Definition execute (command : Request P) : BusM W P (Result V) :=
  match handlerMap !! class_ref (constructor command) with
  | None =>
      mret (Failure (internal_server_error
        ("No command handler found for " ++ name (constructor command))))
  | Some handlerToken =>
      uow ← call_get C TOKENS_UnitOfWork;
      try_catch (try_block uow handlerToken command) (catch_block uow)
  end.

(** [execute] on whatever it is handed.  Line 36 reads
    [command.constructor], which throws for [null] and [undefined]; for an
    object without a constructor the key is [undefined], which no handler
    map has, and the message of the [Failure] then reads
    [command.constructor.name], which throws.  Both happen before the
    [try] block. *)
Definition execute_any (argument : Argument P) : BusM W P (Result V) :=
  match argument with
  | Instance command => execute command
  | NoConstructor _ => throw (TypeError_reading "name")
  | Nullish => throw (TypeError_reading "constructor")
  end.

End CommandBus.
End CommandBus.

(** ** QueryBus *)

Module QueryBus.
Section QueryBus.

Context {W P V : Type}.
Variable C : Collaborators W P V.
(** The [handlerMap] field of the bus, set by its constructor. *)
Variable handlerMap : HandlerMap.

(** The body of the [try] block of [execute]. *)
Definition try_block (handlerToken : symbol) (query : Request P)
    : BusM W P (Result V) :=
  handler ← call_get C handlerToken;
  value ← call_handle C handler query;
  mret (Success value).

(** The [catch (error)] block of [execute]. *)
Definition catch_block (error : Thrown) : BusM W P (Result V) :=
  match error with
  | ThrowHttpError e => mret (Failure e)
  | _ =>
      mret (Failure (internal_server_error
        match error with
        | ThrowError message => message
        | _ => "An unknown query execution error occurred."
        end))
  end.

(** [execute(query)] *)
Definition execute (query : Request P) : BusM W P (Result V) :=
  match handlerMap !! class_ref (constructor query) with
  | None =>
      mret (Failure (internal_server_error
        ("No query handler found for " ++ name (constructor query))))
  | Some handlerToken =>
      try_catch (try_block handlerToken query) catch_block
  end.

(** [execute] on whatever it is handed: as for the command bus, lines 81
    and 83 read [query.constructor] and [query.constructor.name] outside
    the [try] block. *)
Definition execute_any (argument : Argument P) : BusM W P (Result V) :=
  match argument with
  | Instance query => execute query
  | NoConstructor _ => throw (TypeError_reading "name")
  | Nullish => throw (TypeError_reading "constructor")
  end.

End QueryBus.
End QueryBus.

(** ** Counting calls in a history *)

Definition is_beginTransaction {P} (c : Call P) : bool :=
  match c with CallBeginTransaction _ => true | _ => false end.
Definition is_commit {P} (c : Call P) : bool :=
  match c with CallCommit _ => true | _ => false end.
Definition is_rollback {P} (c : Call P) : bool :=
  match c with CallRollback _ => true | _ => false end.

Definition count_calls {P} (p : Call P -> bool) (tr : list (Event P)) : nat :=
  length (filter (fun ev => p (call ev) = true) tr).

(** Some call selected by [p] threw. *)
Definition call_failed {P} (p : Call P -> bool) (tr : list (Event P)) : bool :=
  existsb (fun ev => p (call ev) && bool_decide (is_Some (thrown ev))) tr.

(** ** The classification rule, in the words of the specification *)

(** "If it already carries an explicit status/title/detail classification,
    return it unchanged; otherwise wrap it as code 500, title Internal
    Server Error, detail the original message or" the bus's fallback text.
    The buses do not call such a function: their [catch] blocks spell the
    rule out, and the theorems below compare them with this one. *)
Definition classification (fallback : string) (error : Thrown) : HttpError :=
  match error with
  | ThrowHttpError e => e
  | ThrowError message => internal_server_error message
  | ThrowValue _ => internal_server_error fallback
  end.

(** ** A scripted world for concrete runs *)

(** What each collaborator does in a concrete run.  The container is given
    per token; the world is a counter of the collaborator calls that
    reached it. *)
Record Scenario := {
  on_get : symbol -> outcome JsValue;
  on_beginTransaction : outcome unit;
  on_handle : outcome Z;
  on_commit : outcome unit;
  on_rollback : outcome unit;
}.

Definition scripted (sc : Scenario) : Collaborators nat string Z := {|
  Container_get token w := (on_get sc token, S w);
  beginTransaction _ w := (on_beginTransaction sc, S w);
  commit _ w := (on_commit sc, S w);
  rollback _ w := (on_rollback sc, S w);
  handle _ _ w := (on_handle sc, S w);
|}.

Definition UnitOfWork_token : symbol := 1.
Definition CreateUserHandler_token : symbol := 2.
Definition GetUserHandler_token : symbol := 3.

Definition the_uow : JsValue := JsObject 10.
Definition the_handler : JsValue := JsObject 11.

Definition CreateUser : Class := {| class_ref := 20; name := "CreateUser" |}.
Definition GetUser : Class := {| class_ref := 21; name := "GetUser" |}.

Definition create_user : Request string :=
  {| constructor := CreateUser; payload := "alice" |}.
Definition get_user : Request string :=
  {| constructor := GetUser; payload := "alice" |}.

(** The container of the scenarios binds the Unit of Work and the two
    handlers and nothing else. *)
Definition bound_container (token : symbol) : outcome JsValue :=
  if decide (token = UnitOfWork_token) then Return the_uow
  else if decide (token = CreateUserHandler_token) then Return the_handler
  else if decide (token = GetUserHandler_token) then Return the_handler
  else Throw (ThrowError "No binding found for token").

(** Scenario A of the specification: everything succeeds, the handler
    returns 42. *)
Definition all_succeed : Scenario := {|
  on_get := bound_container;
  on_beginTransaction := Return ();
  on_handle := Return 42%Z;
  on_commit := Return ();
  on_rollback := Return ();
|}.

(** A bootstrap that registers the command only, and one that registers
    the query as well. *)
Definition bootstrap : HandlerMap :=
  createHandlerMap [(CreateUser, CreateUserHandler_token)].
Definition bootstrap_all : HandlerMap :=
  createHandlerMap
    [(CreateUser, CreateUserHandler_token); (GetUser, GetUserHandler_token)].

(** The store rejects the commit. *)
Definition commit_throws : Scenario := {|
  on_get := bound_container;
  on_beginTransaction := Return ();
  on_handle := Return 42%Z;
  on_commit := Throw (ThrowError "commit rejected");
  on_rollback := Return ();
|}.

(** No connection can be acquired. *)
Definition begin_throws : Scenario := {|
  on_get := bound_container;
  on_beginTransaction := Throw (ThrowError "no connection");
  on_handle := Return 42%Z;
  on_commit := Return ();
  on_rollback := Return ();
|}.

(** Scenario B of the specification: the handler throws a plain [Error]. *)
Definition handler_throws_db_down : Scenario := {|
  on_get := bound_container;
  on_beginTransaction := Return ();
  on_handle := Throw (ThrowError "db down");
  on_commit := Return ();
  on_rollback := Return ();
|}.

(** Scenario D of the specification: the handler throws a classified
    error. *)
Definition not_found : HttpError :=
  {| code := 404; title := "Not Found"; detail := "user missing" |}.
Definition handler_throws_not_found : Scenario := {|
  on_get := bound_container;
  on_beginTransaction := Return ();
  on_handle := Throw (ThrowHttpError not_found);
  on_commit := Return ();
  on_rollback := Return ();
|}.

(** Scenario B of the specification with a rollback that fails too. *)
Definition handler_and_rollback_throw : Scenario := {|
  on_get := bound_container;
  on_beginTransaction := Return ();
  on_handle := Throw (ThrowError "db down");
  on_commit := Return ();
  on_rollback := Throw (ThrowError "rollback failed");
|}.

(** The handler does [throw "db down"]: a string, not an [Error]. *)
Definition handler_throws_string : Scenario := {|
  on_get := bound_container;
  on_beginTransaction := Return ();
  on_handle := Throw (ThrowValue (JsString "db down"));
  on_commit := Return ();
  on_rollback := Return ();
|}.

(** The container has no Unit of Work to give. *)
Definition no_uow_binding : Scenario := {|
  on_get := fun _ => Throw (ThrowError "No binding found for token");
  on_beginTransaction := Return ();
  on_handle := Return 42%Z;
  on_commit := Return ();
  on_rollback := Return ();
|}.

(** A misconfigured bootstrap: the query is registered under the token of
    the Unit of Work, and the Unit of Work has no [handle] method. *)
Definition bootstrap_uow_token : HandlerMap :=
  createHandlerMap [(GetUser, UnitOfWork_token)].
Definition uow_as_handler : Scenario := {|
  on_get := bound_container;
  on_beginTransaction := Return ();
  on_handle := Throw (ThrowError "handler.handle is not a function");
  on_commit := Return ();
  on_rollback := Return ();
|}.

(** The container does [throw "no container"] for every token. *)
Definition container_throws_string : Scenario := {|
  on_get := fun _ => Throw (ThrowValue (JsString "no container"));
  on_beginTransaction := Return ();
  on_handle := Return 42%Z;
  on_commit := Return ();
  on_rollback := Return ();
|}.

(** The handler throws an [Error] and rollback does [throw "rollback
    failed"]. *)
Definition rollback_throws_string : Scenario := {|
  on_get := bound_container;
  on_beginTransaction := Return ();
  on_handle := Throw (ThrowError "db down");
  on_commit := Return ();
  on_rollback := Throw (ThrowValue (JsString "rollback failed"));
|}.

(** ** Reading histories and bootstrap lists *)

(** The event of a call that returned, and of one that threw. *)
Definition returned {P} (c : Call P) : Event P :=
  {| call := c; thrown := None |}.
Definition threw {P} (c : Call P) (e : Thrown) : Event P :=
  {| call := c; thrown := Some e |}.

(** The constructor identities a bootstrap list registers, in order. *)
Definition registered_types (mappings : list (Class * symbol)) : list ref :=
  (fun p => class_ref p.1) <$> mappings.

(** The (key, token) entries a bootstrap list sets, in order. *)
Definition entries (mappings : list (Class * symbol)) : list (ref * symbol) :=
  (fun p => (class_ref p.1, p.2)) <$> mappings.

(** A second constructor named "CreateUser", as another module may
    declare one. *)
Definition CreateUser' : Class := {| class_ref := 22; name := "CreateUser" |}.

(** * Properties *)

(** ** The handler map *)

Lemma createHandlerMap_snoc (mappings : list (Class * symbol)) c token :
  createHandlerMap (mappings ++ [(c, token)])
  = <[class_ref c := token]> (createHandlerMap mappings).
Proof. unfold createHandlerMap. by rewrite foldl_app. Qed.

Lemma createHandlerMap_lookup (mappings : list (Class * symbol)) (k : ref) :
  createHandlerMap mappings !! k
  = snd <$> last (filter (fun p => class_ref p.1 = k) mappings).
Proof.
  induction mappings as [|[c token] mappings IH] using rev_ind.
  - done.
  - rewrite createHandlerMap_snoc, filter_app, filter_cons, filter_nil.
    simpl. destruct (decide (class_ref c = k)) as [->|Hne].
    + by rewrite lookup_insert_eq, last_snoc.
    + by rewrite lookup_insert_ne, app_nil_r.
Qed.

(** C8.  For every ordered sequence of (request type, token) pairs, the map
    built by [createHandlerMap] has an entry exactly for the types that
    occur in the sequence, and the one token a type is mapped to is the
    token of the last pair of the sequence for that type: later duplicates
    overwrite earlier ones. *)
Theorem createHandlerMap_last_wins (mappings : list (Class * symbol)) (k : ref) :
  createHandlerMap mappings !! k
  = snd <$> last (filter (fun p => class_ref p.1 = k) mappings)
  ∧ (is_Some (createHandlerMap mappings !! k)
     ↔ k ∈ (fun p => class_ref p.1) <$> mappings).
Proof.
  split; [apply createHandlerMap_lookup|].
  rewrite createHandlerMap_lookup, list_elem_of_fmap.
  split.
  - intros [token Hlast].
    destruct (last _) as [p|] eqn:Hp; [|done].
    apply last_Some_elem_of, list_elem_of_filter in Hp as [Hk Hin]. eauto.
  - intros (p & -> & Hin).
    assert (Hf : p ∈ filter (fun q : Class * symbol => class_ref q.1 = class_ref p.1) mappings)
      by by apply list_elem_of_filter.
    destruct (filter _ mappings) as [|q l] eqn:Hl using rev_ind.
    + by apply elem_of_nil in Hf.
    + by rewrite last_snoc.
Qed.

Example createHandlerMap_duplicate :
  createHandlerMap
    [(CreateUser, 5%positive); (GetUser, 6%positive); (CreateUser, 7%positive)]
    !! class_ref CreateUser = Some 7%positive.
Proof. reflexivity. Qed.

(** ** Reasoning about bus runs *)

(** Unfolds a bus computation down to the collaborator calls. *)
Ltac bus_unfold :=
  unfold calls_of, history_of, result_of, world_of, run,
    CommandBus.execute_any, QueryBus.execute_any,
    CommandBus.execute, QueryBus.execute, try_catch, throw,
    CommandBus.try_block, CommandBus.catch_block,
    QueryBus.try_block, QueryBus.catch_block,
    call_get, call_beginTransaction, call_commit, call_rollback, call_handle,
    invoke, mbind, BusM_bind, mret, BusM_ret in *;
  simpl in *.

(** Case analysis on the next collaborator call of the goal. *)
Ltac bus_step :=
  match goal with
  | |- context [Container_get ?C ?t ?w] =>
      let o := fresh "o" in let w' := fresh "w" in
      destruct (Container_get C t w) as [[o|o] w'] eqn:?; simpl
  | |- context [beginTransaction ?C ?u ?w] =>
      let w' := fresh "w" in
      destruct (beginTransaction C u w) as [[[]|?] w'] eqn:?; simpl
  | |- context [handle ?C ?h ?r ?w] =>
      let w' := fresh "w" in
      destruct (handle C h r w) as [[?|?] w'] eqn:?; simpl
  | |- context [commit ?C ?u ?w] =>
      let w' := fresh "w" in
      destruct (commit C u w) as [[[]|?] w'] eqn:?; simpl
  | |- context [rollback ?C ?u ?w] =>
      let w' := fresh "w" in
      destruct (rollback C u w) as [[[]|?] w'] eqn:?; simpl
  end.

(** Case analysis on the error a [catch] block classifies. *)
Ltac bus_catch :=
  match goal with
  | |- context [match ?e with ThrowHttpError _ => _ | _ => _ end] =>
      is_var e; destruct e; simpl
  end.

(** All the runs of the bus computation in the goal. *)
Ltac bus_cases := repeat first [bus_step | bus_catch].

Section Properties.

Context {W P V : Type}.
Variable C : Collaborators W P V.
Variable TOKENS_UnitOfWork : symbol.

Implicit Types (handlerMap : HandlerMap) (request command query : Request P).
Implicit Types (w : W) (uow handler : JsValue) (error : Thrown).

(** *** Requests without a handler *)

(** C4.  A command or query whose constructor has no entry in the handler
    map gets [Failure(500, "Internal Server Error", "No command handler
    found for <name>")] (respectively "No query handler found for
    <name>"), the bus has called no collaborator (no container lookup, no
    Unit-of-Work operation) and the world is as it was. *)
Theorem execute_unregistered handlerMap request w :
  handlerMap !! class_ref (constructor request) = None ->
  run (CommandBus.execute C TOKENS_UnitOfWork handlerMap request) w
  = (Return (Failure
       {| code := 500; title := "Internal Server Error";
          detail := "No command handler found for "
                    ++ name (constructor request) |}),
     (w, []))
  ∧ run (QueryBus.execute C handlerMap request) w
  = (Return (Failure
       {| code := 500; title := "Internal Server Error";
          detail := "No query handler found for "
                    ++ name (constructor request) |}),
     (w, [])).
Proof. intros Hnone. bus_unfold. by rewrite Hnone. Qed.

(** *** The successful command *)

(** C6.  When the command's constructor is registered and the
    Unit-of-Work lookup, [beginTransaction], the handler lookup, the
    handler and [commit] all return, [execute] returns [Success] of the
    handler's value; the calls are exactly lookup, begin, lookup, handle,
    commit, so begin and commit are called once and rollback never. *)
Theorem CommandBus_execute_success
    handlerMap command handlerToken uow handler (value : V) w0 w1 w2 w3 w4 w5 :
  handlerMap !! class_ref (constructor command) = Some handlerToken ->
  Container_get C TOKENS_UnitOfWork w0 = (Return uow, w1) ->
  beginTransaction C uow w1 = (Return (), w2) ->
  Container_get C handlerToken w2 = (Return handler, w3) ->
  handle C handler command w3 = (Return value, w4) ->
  commit C uow w4 = (Return (), w5) ->
  let m := CommandBus.execute C TOKENS_UnitOfWork handlerMap command in
  result_of m w0 = Return (Success value)
  ∧ calls_of m w0
    = [CallContainerGet TOKENS_UnitOfWork; CallBeginTransaction uow;
       CallContainerGet handlerToken; CallHandle handler command;
       CallCommit uow]
  ∧ count_calls is_beginTransaction (history_of m w0) = 1
  ∧ count_calls is_commit (history_of m w0) = 1
  ∧ count_calls is_rollback (history_of m w0) = 0.
Proof.
  intros Hmap Huow Hbegin Hget Hhandle Hcommit m. subst m. bus_unfold.
  rewrite Hmap. simpl. rewrite Huow. simpl. rewrite Hbegin. simpl.
  rewrite Hget. simpl. rewrite Hhandle. simpl. rewrite Hcommit. simpl.
  done.
Qed.

(** *** Failure to acquire the Unit of Work *)

(** C9.  For a registered command, a throw of the container's lookup of
    the Unit of Work escapes [execute] as that same raised fault: the
    lookup is the only call made, before the [try] block, so nothing
    catches it and no Unit-of-Work operation runs. *)
Theorem CommandBus_execute_uow_lookup_throws
    handlerMap command handlerToken error w0 w1 :
  handlerMap !! class_ref (constructor command) = Some handlerToken ->
  Container_get C TOKENS_UnitOfWork w0 = (Throw error, w1) ->
  run (CommandBus.execute C TOKENS_UnitOfWork handlerMap command) w0
  = (Throw error,
     (w1, [{| call := CallContainerGet TOKENS_UnitOfWork;
              thrown := Some error |}])).
Proof.
  intros Hmap Huow. bus_unfold. rewrite Hmap. simpl. by rewrite Huow.
Qed.

(** *** Queries run outside any transaction *)

(** C7, as the code has it.  Every call [QueryBus.execute] makes is
    either the container lookup of the token registered for the query's
    constructor or [handle] on that query: it never calls
    [beginTransaction], [commit] or [rollback].  The only thing it asks
    the container for is the registered token, so it asks for the Unit of
    Work exactly when the handler map gives [TOKENS.UnitOfWork] for the
    query's constructor. *)
Theorem QueryBus_execute_no_transaction handlerMap query w :
  let tr := history_of (QueryBus.execute C handlerMap query) w in
  count_calls is_beginTransaction tr = 0
  ∧ count_calls is_commit tr = 0
  ∧ count_calls is_rollback tr = 0
  ∧ Forall (fun c =>
      match c with
      | CallContainerGet token =>
          handlerMap !! class_ref (constructor query) = Some token
      | CallHandle _ request => request = query
      | _ => False
      end) (call <$> tr)
  ∧ (CallContainerGet TOKENS_UnitOfWork ∈ call <$> tr
     ↔ handlerMap !! class_ref (constructor query) = Some TOKENS_UnitOfWork).
Proof.
  intros tr. subst tr. bus_unfold.
  destruct (handlerMap !! class_ref (constructor query)) as [token|] eqn:Hmap;
    simpl.
  - bus_cases;
      (split; [reflexivity|]; split; [reflexivity|]; split; [reflexivity|];
       split; [repeat constructor|]);
      (split;
       [ intros Hin; repeat (apply elem_of_cons in Hin as [Hin|Hin]);
         try (by apply elem_of_nil in Hin); congruence
       | intros [= ->]; apply list_elem_of_here ]).
  - split; [reflexivity|]. split; [reflexivity|]. split; [reflexivity|].
    split; [constructor|]. split; [|done].
    intros Hin. by apply elem_of_nil in Hin.
Qed.

(** *** How a command's transaction is finalized *)

(** C1, as the code has it.  In every command execution
    [beginTransaction], [commit] and [rollback] are each called at most
    once.  When [beginTransaction] is not called neither [commit] nor
    [rollback] is; when it is called, exactly one of the two is called,
    unless the [commit] call itself throws: the [catch] block then calls
    [rollback] after the failed [commit], and both have been called.
    When the registry lookup fails the bus calls nothing at all. *)
Theorem CommandBus_execute_finalization handlerMap command w :
  let tr :=
    history_of (CommandBus.execute C TOKENS_UnitOfWork handlerMap command) w in
  (count_calls is_beginTransaction tr <= 1
   ∧ count_calls is_commit tr <= 1
   ∧ count_calls is_rollback tr <= 1)
  ∧ count_calls is_commit tr + count_calls is_rollback tr
    = match count_calls is_beginTransaction tr with
      | 0 => 0
      | _ => if call_failed is_commit tr then 2 else 1
      end
  ∧ (handlerMap !! class_ref (constructor command) = None -> tr = []).
Proof.
  intros tr. subst tr. bus_unfold.
  destruct (handlerMap !! class_ref (constructor command)) as [token|];
    simpl; [|repeat split; vm_compute; lia].
  bus_cases; repeat split; solve [vm_compute; lia | discriminate].
Qed.

(** *** A failing [beginTransaction] *)

(** C2, as the code has it.  [beginTransaction] is called inside the
    [try] block.  When it throws, the bus resolves and invokes no handler
    and does not call [commit], but it does call [rollback], once; when
    that returns, the failure of [beginTransaction] comes back as a
    [Failure] under the classification rule, and when it throws, its
    error is what [execute] raises. *)
Theorem CommandBus_execute_begin_throws
    handlerMap command handlerToken uow error w0 w1 w2 :
  handlerMap !! class_ref (constructor command) = Some handlerToken ->
  Container_get C TOKENS_UnitOfWork w0 = (Return uow, w1) ->
  beginTransaction C uow w1 = (Throw error, w2) ->
  let m := CommandBus.execute C TOKENS_UnitOfWork handlerMap command in
  calls_of m w0
  = [CallContainerGet TOKENS_UnitOfWork; CallBeginTransaction uow;
     CallRollback uow]
  ∧ result_of m w0
    = match (rollback C uow w2).1 with
      | Return _ =>
          Return (Failure (classification
            "An unknown command execution error occurred." error))
      | Throw rollback_error => Throw rollback_error
      end.
Proof.
  intros Hmap Huow Hbegin m. subst m. bus_unfold.
  rewrite Hmap. simpl. rewrite Huow. simpl. rewrite Hbegin. simpl.
  destruct (rollback C uow w2) as [[[]|?] ?]; simpl; [|done].
  by destruct error.
Qed.

(** *** What reaches the caller *)

(** C3, as the code has it.  Handed a request that has a constructor,
    [QueryBus.execute] always returns a [Result], and [CommandBus.execute]
    returns a [Result] too, whatever [beginTransaction], the handler
    lookup, the handler or [commit] do, with two exceptions, which are the
    only faults it raises: a throw of the Unit-of-Work lookup, made before
    the [try] block, and a throw of [rollback], made in the [catch] block,
    which replaces the error being handled.  Handed anything without a
    constructor, both buses raise a [TypeError] before any call, since the
    constructor and its name are read outside the [try] block. *)
Theorem execute_raises_only_uow_lookup_or_rollback
    handlerMap (argument : Argument P) w :
  match argument with
  | Instance _ =>
      (∃ r, result_of (QueryBus.execute_any C handlerMap argument) w = Return r)
      ∧ ∀ error,
          result_of
            (CommandBus.execute_any C TOKENS_UnitOfWork handlerMap argument) w
          = Throw error
          ↔ let tr :=
              history_of
                (CommandBus.execute_any C TOKENS_UnitOfWork handlerMap
                   argument) w in
            tr = [{| call := CallContainerGet TOKENS_UnitOfWork;
                     thrown := Some error |}]
            ∨ ∃ uow,
                last tr
                = Some {| call := CallRollback uow; thrown := Some error |}
  | _ =>
      ∃ message,
        run (QueryBus.execute_any C handlerMap argument) w
        = (Throw (ThrowError message), (w, []))
        ∧ run (CommandBus.execute_any C TOKENS_UnitOfWork handlerMap argument) w
          = (Throw (ThrowError message), (w, []))
  end.
Proof.
  destruct argument as [request| |]; [|by eexists..].
  split.
  - bus_unfold.
    destruct (handlerMap !! class_ref (constructor request)); simpl;
      [bus_cases|]; eauto.
  - intros error. bus_unfold.
    destruct (handlerMap !! class_ref (constructor request)); simpl;
      [bus_cases|];
      (split; [intros [= <-]; eauto | intros [[=]|[? [=]]]; by subst]).
Qed.

(** *** Classification of caught errors *)

(** Whatever the [try] block of the command bus throws is classified
    after a [rollback] that returns. *)
Lemma CommandBus_execute_caught
    handlerMap command handlerToken uow error w0 w1 w3 :
  handlerMap !! class_ref (constructor command) = Some handlerToken ->
  Container_get C TOKENS_UnitOfWork w0 = (Return uow, w1) ->
  result_of (CommandBus.try_block C uow handlerToken command) w1 = Throw error ->
  rollback C uow (world_of (CommandBus.try_block C uow handlerToken command) w1)
  = (Return (), w3) ->
  let m := CommandBus.execute C TOKENS_UnitOfWork handlerMap command in
  result_of m w0
  = Return (Failure (classification
      "An unknown command execution error occurred." error))
  ∧ last (calls_of m w0) = Some (CallRollback uow)
  ∧ world_of m w0 = w3.
Proof.
  intros Hmap Huow Htry Hrollback m. subst m.
  revert Htry Hrollback. bus_unfold. rewrite Hmap. simpl.
  rewrite Huow. simpl.
  bus_cases; intros [= <-] [= <-]; simpl; by bus_cases.
Qed.

(** Whatever the [try] block of the query bus throws is classified. *)
Lemma QueryBus_execute_caught handlerMap query handlerToken error w0 :
  handlerMap !! class_ref (constructor query) = Some handlerToken ->
  result_of (QueryBus.try_block C handlerToken query) w0 = Throw error ->
  result_of (QueryBus.execute C handlerMap query) w0
  = Return (Failure (classification
      "An unknown query execution error occurred." error)).
Proof.
  intros Hmap Htry. revert Htry. bus_unfold. rewrite Hmap. simpl.
  bus_cases; intros [= <-]; simpl; by bus_cases.
Qed.

(** C5, as the code has it.  Both buses classify what their [try] block
    throws (for commands: [beginTransaction], handler lookup, handler or
    [commit]; for queries: handler lookup or handler) by one rule: an
    [HttpError] is returned unchanged as [Failure(error)]; another
    [Error] is wrapped as [Failure(500, "Internal Server Error",
    error.message)]; a thrown value that is no [Error] is wrapped with the
    bus's own fixed detail text, not with anything of the value.  The
    command bus returns this [Failure] after calling [rollback], its last
    call, when [rollback] returns. *)
Theorem execute_classifies_caught_error :
  (∀ handlerMap command handlerToken uow error w0 w1 w3,
     handlerMap !! class_ref (constructor command) = Some handlerToken ->
     Container_get C TOKENS_UnitOfWork w0 = (Return uow, w1) ->
     result_of (CommandBus.try_block C uow handlerToken command) w1 = Throw error ->
     rollback C uow (world_of (CommandBus.try_block C uow handlerToken command) w1)
     = (Return (), w3) ->
     let m := CommandBus.execute C TOKENS_UnitOfWork handlerMap command in
     result_of m w0
     = Return (Failure (classification
         "An unknown command execution error occurred." error))
     ∧ last (calls_of m w0) = Some (CallRollback uow))
  ∧ (∀ handlerMap query handlerToken error w0,
       handlerMap !! class_ref (constructor query) = Some handlerToken ->
       result_of (QueryBus.try_block C handlerToken query) w0 = Throw error ->
       result_of (QueryBus.execute C handlerMap query) w0
       = Return (Failure (classification
           "An unknown query execution error occurred." error))).
Proof.
  split.
  - intros * Hmap Huow Htry Hrollback m.
    destruct (CommandBus_execute_caught _ _ _ _ _ _ _ _
                Hmap Huow Htry Hrollback) as (Hresult & Hlast & _).
    done.
  - intros *. apply QueryBus_execute_caught.
Qed.

(** *** Thrown values that are not errors *)

(** C10, as the code has it.  When what the [try] block throws is neither
    an [HttpError] nor an [Error] (a thrown string, say), nothing of the
    thrown value reaches the caller: the [Failure] returned has the fixed
    detail "An unknown command execution error occurred." on the command
    bus (once [rollback] has returned) and "An unknown query execution
    error occurred." on the query bus.  An [Error] that is no [HttpError]
    has its [message] as the detail.  The rule is that of the [catch]
    blocks: what the Unit-of-Work lookup or [rollback] throws does not
    pass through it. *)
Theorem execute_unknown_error_fallback :
  (∀ handlerMap command handlerToken uow (v : JsValue) w0 w1 w3,
     handlerMap !! class_ref (constructor command) = Some handlerToken ->
     Container_get C TOKENS_UnitOfWork w0 = (Return uow, w1) ->
     result_of (CommandBus.try_block C uow handlerToken command) w1
     = Throw (ThrowValue v) ->
     rollback C uow (world_of (CommandBus.try_block C uow handlerToken command) w1)
     = (Return (), w3) ->
     result_of (CommandBus.execute C TOKENS_UnitOfWork handlerMap command) w0
     = Return (Failure
         {| code := 500; title := "Internal Server Error";
            detail := "An unknown command execution error occurred." |}))
  ∧ (∀ handlerMap query handlerToken (v : JsValue) w0,
       handlerMap !! class_ref (constructor query) = Some handlerToken ->
       result_of (QueryBus.try_block C handlerToken query) w0 = Throw (ThrowValue v) ->
       result_of (QueryBus.execute C handlerMap query) w0
       = Return (Failure
           {| code := 500; title := "Internal Server Error";
              detail := "An unknown query execution error occurred." |}))
  ∧ (∀ handlerMap command handlerToken uow (message : string) w0 w1 w3,
       handlerMap !! class_ref (constructor command) = Some handlerToken ->
       Container_get C TOKENS_UnitOfWork w0 = (Return uow, w1) ->
       result_of (CommandBus.try_block C uow handlerToken command) w1
       = Throw (ThrowError message) ->
       rollback C uow (world_of (CommandBus.try_block C uow handlerToken command) w1)
       = (Return (), w3) ->
       result_of (CommandBus.execute C TOKENS_UnitOfWork handlerMap command) w0
       = Return (Failure
           {| code := 500; title := "Internal Server Error";
              detail := message |}))
  ∧ (∀ handlerMap query handlerToken (message : string) w0,
       handlerMap !! class_ref (constructor query) = Some handlerToken ->
       result_of (QueryBus.try_block C handlerToken query) w0
       = Throw (ThrowError message) ->
       result_of (QueryBus.execute C handlerMap query) w0
       = Return (Failure
           {| code := 500; title := "Internal Server Error";
              detail := message |})).
Proof.
  repeat split.
  - intros * Hmap Huow Htry Hrollback.
    by destruct (CommandBus_execute_caught _ _ _ _ _ _ _ _
                   Hmap Huow Htry Hrollback) as [-> _].
  - intros * Hmap Htry. by rewrite (QueryBus_execute_caught _ _ _ _ _ Hmap Htry).
  - intros * Hmap Huow Htry Hrollback.
    by destruct (CommandBus_execute_caught _ _ _ _ _ _ _ _
                   Hmap Huow Htry Hrollback) as [-> _].
  - intros * Hmap Htry. by rewrite (QueryBus_execute_caught _ _ _ _ _ Hmap Htry).
Qed.

End Properties.

(** * Concrete runs *)

Lemma execute_unregistered_GetUser :
  run (CommandBus.execute (scripted all_succeed) UnitOfWork_token
         bootstrap get_user) 0
  = (Return (Failure
       {| code := 500; title := "Internal Server Error";
          detail := "No command handler found for GetUser" |}),
     (0, []))
  ∧ run (QueryBus.execute (scripted all_succeed) bootstrap get_user) 0
  = (Return (Failure
       {| code := 500; title := "Internal Server Error";
          detail := "No query handler found for GetUser" |}),
     (0, [])).
Proof.
  exact (execute_unregistered (scripted all_succeed) UnitOfWork_token
           bootstrap get_user 0 eq_refl).
Defined.

Lemma CommandBus_execute_CreateUser_42 :
  let m := CommandBus.execute (scripted all_succeed) UnitOfWork_token
             bootstrap create_user in
  result_of m 0 = Return (Success 42%Z)
  ∧ calls_of m 0
    = [CallContainerGet UnitOfWork_token; CallBeginTransaction the_uow;
       CallContainerGet CreateUserHandler_token;
       CallHandle the_handler create_user; CallCommit the_uow]
  ∧ count_calls is_beginTransaction (history_of m 0) = 1
  ∧ count_calls is_commit (history_of m 0) = 1
  ∧ count_calls is_rollback (history_of m 0) = 0.
Proof.
  exact (CommandBus_execute_success (scripted all_succeed) UnitOfWork_token
           bootstrap create_user CreateUserHandler_token the_uow the_handler
           42%Z 0 1 2 3 4 5 eq_refl eq_refl eq_refl eq_refl eq_refl eq_refl).
Defined.

Lemma CommandBus_execute_no_uow_binding :
  run (CommandBus.execute (scripted no_uow_binding) UnitOfWork_token
         bootstrap create_user) 0
  = (Throw (ThrowError "No binding found for token"),
     (1, [{| call := CallContainerGet UnitOfWork_token;
             thrown := Some (ThrowError "No binding found for token") |}])).
Proof.
  exact (CommandBus_execute_uow_lookup_throws (scripted no_uow_binding)
           UnitOfWork_token bootstrap create_user CreateUserHandler_token
           (ThrowError "No binding found for token") 0 1 eq_refl eq_refl).
Defined.

Lemma CommandBus_execute_no_connection :
  let m := CommandBus.execute (scripted begin_throws) UnitOfWork_token
             bootstrap create_user in
  calls_of m 0
  = [CallContainerGet UnitOfWork_token; CallBeginTransaction the_uow;
     CallRollback the_uow]
  ∧ result_of m 0
    = Return (Failure
        {| code := 500; title := "Internal Server Error";
           detail := "no connection" |}).
Proof.
  exact (CommandBus_execute_begin_throws (scripted begin_throws)
           UnitOfWork_token bootstrap create_user CreateUserHandler_token
           the_uow (ThrowError "no connection") 0 1 2
           eq_refl eq_refl eq_refl).
Defined.

(** Scenario D for the command bus, and a query whose handler throws a
    plain [Error]. *)
Lemma execute_classifies_not_found :
  (let m := CommandBus.execute (scripted handler_throws_not_found)
              UnitOfWork_token bootstrap create_user in
   result_of m 0 = Return (Failure not_found)
   ∧ last (calls_of m 0) = Some (CallRollback the_uow))
  ∧ result_of (QueryBus.execute (scripted handler_throws_db_down)
                 bootstrap_all get_user) 0
    = Return (Failure
        {| code := 500; title := "Internal Server Error";
           detail := "db down" |}).
Proof.
  split.
  - exact (proj1 (execute_classifies_caught_error
                    (scripted handler_throws_not_found) UnitOfWork_token)
             bootstrap create_user CreateUserHandler_token the_uow
             (ThrowHttpError not_found) 0 1 5 eq_refl eq_refl eq_refl eq_refl).
  - exact (proj2 (execute_classifies_caught_error
                    (scripted handler_throws_db_down) UnitOfWork_token)
             bootstrap_all get_user GetUserHandler_token
             (ThrowError "db down") 0 eq_refl eq_refl).
Defined.

Lemma execute_thrown_string :
  result_of (CommandBus.execute (scripted handler_throws_string)
               UnitOfWork_token bootstrap create_user) 0
  = Return (Failure
      {| code := 500; title := "Internal Server Error";
         detail := "An unknown command execution error occurred." |})
  ∧ result_of (QueryBus.execute (scripted handler_throws_string)
                 bootstrap_all get_user) 0
    = Return (Failure
        {| code := 500; title := "Internal Server Error";
           detail := "An unknown query execution error occurred." |})
  ∧ result_of (CommandBus.execute (scripted handler_throws_db_down)
                 UnitOfWork_token bootstrap create_user) 0
    = Return (Failure
        {| code := 500; title := "Internal Server Error";
           detail := "db down" |})
  ∧ result_of (QueryBus.execute (scripted handler_throws_db_down)
                 bootstrap_all get_user) 0
    = Return (Failure
        {| code := 500; title := "Internal Server Error";
           detail := "db down" |}).
Proof.
  pose proof (execute_unknown_error_fallback
                (scripted handler_throws_string) UnitOfWork_token)
    as (Hcommand & Hquery & _).
  pose proof (execute_unknown_error_fallback
                (scripted handler_throws_db_down) UnitOfWork_token)
    as (_ & _ & Hcommand_error & Hquery_error).
  split; [|split; [|split]].
  - exact (Hcommand bootstrap create_user CreateUserHandler_token the_uow
             (JsString "db down") 0 1 5 eq_refl eq_refl eq_refl eq_refl).
  - exact (Hquery bootstrap_all get_user GetUserHandler_token
             (JsString "db down") 0 eq_refl eq_refl).
  - exact (Hcommand_error bootstrap create_user CreateUserHandler_token
             the_uow "db down" 0 1 5 eq_refl eq_refl eq_refl eq_refl).
  - exact (Hquery_error bootstrap_all get_user GetUserHandler_token
             "db down" 0 eq_refl eq_refl).
Defined.

(** Scenario B of the specification: the handler throws a plain [Error]
    with message "db down"; rollback is called once, commit never. *)
Example CommandBus_execute_db_down :
  let m := CommandBus.execute (scripted handler_throws_db_down)
             UnitOfWork_token bootstrap create_user in
  result_of m 0
  = Return (Failure
      {| code := 500; title := "Internal Server Error"; detail := "db down" |})
  ∧ count_calls is_rollback (history_of m 0) = 1
  ∧ count_calls is_commit (history_of m 0) = 0.
Proof. by vm_compute. Qed.

(** Scenario C of the specification. *)
Example QueryBus_execute_GetUser_unregistered :
  result_of (QueryBus.execute (scripted all_succeed) bootstrap get_user) 0
  = Return (Failure
      {| code := 500; title := "Internal Server Error";
         detail := "No query handler found for GetUser" |}).
Proof. reflexivity. Qed.

(** ** Runs on which the specification's wording fails *)

(** C1 as stated fails when [commit] throws: [beginTransaction] has been
    called, and both [commit] and [rollback] are called in the one
    execution. *)
Lemma commit_failure_calls_commit_and_rollback :
  let m := CommandBus.execute (scripted commit_throws) UnitOfWork_token
             bootstrap create_user in
  calls_of m 0
  = [CallContainerGet UnitOfWork_token; CallBeginTransaction the_uow;
     CallContainerGet CreateUserHandler_token;
     CallHandle the_handler create_user; CallCommit the_uow;
     CallRollback the_uow]
  ∧ count_calls is_beginTransaction (history_of m 0) = 1
  ∧ ¬ (count_calls is_commit (history_of m 0)
       + count_calls is_rollback (history_of m 0) = 1).
Proof. split; [reflexivity|]. split; [reflexivity|]. vm_compute. lia. Qed.

(** C2 as stated fails: when [beginTransaction] throws, the bus calls
    [rollback] on a Unit of Work that never became active, and the caller
    gets a [Failure]. *)
Lemma begin_failure_calls_rollback :
  let m := CommandBus.execute (scripted begin_throws) UnitOfWork_token
             bootstrap create_user in
  calls_of m 0
  = [CallContainerGet UnitOfWork_token; CallBeginTransaction the_uow;
     CallRollback the_uow]
  ∧ ¬ (count_calls is_rollback (history_of m 0) = 0).
Proof. split; [reflexivity|]. vm_compute. lia. Qed.

(** C3 as stated fails: when the handler throws and [rollback] throws too,
    [execute] returns no [Result]; it raises the error of [rollback]. *)
Lemma rollback_failure_escapes :
  let m := CommandBus.execute (scripted handler_and_rollback_throw)
             UnitOfWork_token bootstrap create_user in
  result_of m 0 = Throw (ThrowError "rollback failed")
  ∧ ¬ ∃ r, result_of m 0 = Return r.
Proof. split; [reflexivity|]. intros [r [=]]. Qed.

(** C5 as stated fails: a handler that throws the string "db down" does
    not get its message into the [Failure]. *)
Lemma thrown_string_message_not_preserved :
  let m := CommandBus.execute (scripted handler_throws_string)
             UnitOfWork_token bootstrap create_user in
  result_of m 0
  = Return (Failure
      {| code := 500; title := "Internal Server Error";
         detail := "An unknown command execution error occurred." |})
  ∧ result_of m 0
    ≠ Return (Failure
        {| code := 500; title := "Internal Server Error";
           detail := "db down" |}).
Proof. split; [reflexivity|]. intros [=]. Qed.

(** * Further properties of the handler map *)

(** [new Map(mappings)] is the library's [list_to_map] on the reversed
    list, which keeps the first of two entries with one key. *)
Lemma createHandlerMap_list_to_map (mappings : list (Class * symbol)) :
  createHandlerMap mappings = list_to_map (reverse (entries mappings)).
Proof.
  induction mappings as [|[c token] mappings IH] using rev_ind; [done|].
  rewrite createHandlerMap_snoc, IH. unfold entries.
  rewrite fmap_app. simpl. by rewrite reverse_snoc.
Qed.

Lemma remove_dups_length_le (l : list ref) :
  length (remove_dups l) <= length l.
Proof. induction l; simpl; [done|]. case_decide; simpl; lia. Qed.

Lemma entries_keys (mappings : list (Class * symbol)) :
  (entries mappings).*1 = registered_types mappings.
Proof.
  unfold entries, registered_types. rewrite <- list_fmap_compose.
  by apply list_fmap_ext.
Qed.

(** X7.  Bootstrapping from two lists in a row is the union of the two maps in
    which the entries of the second list win. *)
Theorem createHandlerMap_app (mappings1 mappings2 : list (Class * symbol)) :
  createHandlerMap (mappings1 ++ mappings2)
  = createHandlerMap mappings2 ∪ createHandlerMap mappings1.
Proof.
  rewrite !createHandlerMap_list_to_map. unfold entries.
  by rewrite fmap_app, reverse_app, list_to_map_app.
Qed.

Lemma createHandlerMap_dom (mappings : list (Class * symbol)) :
  dom (createHandlerMap mappings)
  = list_to_set (C := gset ref) (registered_types mappings).
Proof.
  rewrite createHandlerMap_list_to_map, dom_list_to_map_L.
  rewrite fmap_reverse, entries_keys.
  apply set_eq. intros k. by rewrite !elem_of_list_to_set, elem_of_reverse.
Qed.

(** A type that the bootstrap list does not name has no entry. *)
Lemma createHandlerMap_lookup_unregistered
    (mappings : list (Class * symbol)) (k : ref) :
  k ∉ registered_types mappings -> createHandlerMap mappings !! k = None.
Proof.
  intros Hk. apply (not_elem_of_dom (D := gset ref)).
  by rewrite createHandlerMap_dom, elem_of_list_to_set.
Qed.

(** The pair after which the list does not name the type again decides
    the entry of the type. *)
Lemma createHandlerMap_lookup_registered
    (before after : list (Class * symbol)) (c : Class) (token : symbol) :
  class_ref c ∉ registered_types after ->
  createHandlerMap (before ++ (c, token) :: after) !! class_ref c = Some token.
Proof.
  intros Hafter.
  rewrite (cons_middle (c, token) before after), app_assoc.
  rewrite createHandlerMap_list_to_map.
  unfold entries. rewrite fmap_app, reverse_app, list_to_map_app.
  rewrite lookup_union_r.
  - rewrite fmap_app. simpl. rewrite reverse_snoc. simpl.
    apply lookup_insert_eq.
  - fold (entries after). rewrite <- createHandlerMap_list_to_map.
    by apply createHandlerMap_lookup_unregistered.
Qed.

(** X8.  The map has an entry for each distinct registered type and no other:
    its domain is the set of registered types and its size the number of
    distinct ones, so it is smaller than the list exactly when a type is
    registered twice. *)
Theorem createHandlerMap_size (mappings : list (Class * symbol)) :
  dom (createHandlerMap mappings)
  = list_to_set (C := gset ref) (registered_types mappings)
  ∧ size (createHandlerMap mappings)
    = length (remove_dups (registered_types mappings))
  ∧ (size (createHandlerMap mappings) = length mappings
     ↔ NoDup (registered_types mappings)).
Proof.
  pose proof (createHandlerMap_dom mappings) as Hdom.
  assert (Hsize : size (createHandlerMap mappings)
                  = length (remove_dups (registered_types mappings))).
  { rewrite <- (size_dom (D := gset ref)), Hdom.
    rewrite <- (size_list_to_set (C := gset ref))
      by apply NoDup_remove_dups.
    f_equal. apply set_eq. intros k.
    by rewrite !elem_of_list_to_set, elem_of_remove_dups. }
  split; [done|]. split; [done|].
  rewrite Hsize. unfold registered_types at 2.
  rewrite <- (length_fmap (fun p : Class * symbol => class_ref p.1) mappings).
  fold (registered_types mappings).
  generalize (registered_types mappings). intros l. split.
  - induction l as [|k l IH]; simpl; [constructor|].
    pose proof (remove_dups_length_le l) as Hle.
    case_decide; simpl; intros Hlen; [lia|].
    constructor; [done|]. apply IH. lia.
  - intros Hnodup. induction Hnodup as [|k l Hk _ IH]; simpl; [done|].
    case_decide; [done|]. simpl. by rewrite IH.
Qed.

(** X9.  When no type is registered twice the order of the bootstrap
    list does not matter to what the map answers: a reordered list gives
    the same token (or none) for every constructor, and a map of the same
    size.  (The order in which the [Map] iterates follows the list; it is
    not the subject here.) *)
Theorem createHandlerMap_Permutation (mappings mappings' : list (Class * symbol)) :
  NoDup (registered_types mappings) ->
  mappings ≡ₚ mappings' ->
  (∀ k : ref, createHandlerMap mappings !! k = createHandlerMap mappings' !! k)
  ∧ size (createHandlerMap mappings) = size (createHandlerMap mappings').
Proof.
  intros Hnodup Hperm.
  assert (Heq : createHandlerMap mappings = createHandlerMap mappings').
  { rewrite !createHandlerMap_list_to_map.
    apply list_to_map_proper.
    - by rewrite fmap_reverse, entries_keys, reverse_Permutation.
    - rewrite !reverse_Permutation. unfold entries. by rewrite Hperm. }
  by rewrite Heq.
Qed.

Lemma createHandlerMap_swap :
  (∀ k : ref,
     createHandlerMap
       [(CreateUser, CreateUserHandler_token); (GetUser, GetUserHandler_token)]
       !! k
     = createHandlerMap
         [(GetUser, GetUserHandler_token); (CreateUser, CreateUserHandler_token)]
         !! k)
  ∧ size (createHandlerMap
            [(CreateUser, CreateUserHandler_token);
             (GetUser, GetUserHandler_token)])
    = size (createHandlerMap
              [(GetUser, GetUserHandler_token);
               (CreateUser, CreateUserHandler_token)]).
Proof.
  apply createHandlerMap_Permutation.
  - compute_done.
  - apply perm_swap.
Defined.

(** * Further properties of the buses *)

(** Chooses the disjunct of the goal that holds by what is at hand. *)
Ltac pick_case :=
  solve [repeat first [left; solve [eauto 10] | right]; eauto 10].

(** Membership in an explicit list. *)
Ltac in_history :=
  repeat first [apply list_elem_of_here | apply list_elem_of_further].

(** No membership in an explicit list of other elements. *)
Ltac not_in_history H :=
  repeat (apply elem_of_cons in H as [[=]|H]); by apply elem_of_nil in H.

Section Protocol.

Context {W P V : Type}.
Variable C : Collaborators W P V.
Variable TOKENS_UnitOfWork : symbol.

Implicit Types (handlerMap : HandlerMap) (request command query : Request P).
Implicit Types (w : W) (uow handler : JsValue) (error : Thrown).

(** ** The order of the calls *)

(** X1.  A command execution makes its calls in one fixed order: Unit-of-Work
    lookup, [beginTransaction], handler lookup, [handle], [commit].  It
    stops at the first call that throws; when that call is not the
    Unit-of-Work lookup, one [rollback] follows and is the last call.  All
    three transaction calls go to the value the container gave for the Unit
    of Work, [handle] gets the command itself, and the handler looked up is
    the one registered for the command's constructor. *)
Theorem CommandBus_execute_protocol handlerMap command w :
  let tr :=
    history_of (CommandBus.execute C TOKENS_UnitOfWork handlerMap command) w in
  (handlerMap !! class_ref (constructor command) = None ∧ tr = [])
  ∨ ∃ token,
      handlerMap !! class_ref (constructor command) = Some token
      ∧ ((∃ e, (Container_get C TOKENS_UnitOfWork w).1 = Throw e
               ∧ tr = [threw (CallContainerGet TOKENS_UnitOfWork) e])
         ∨ ∃ uow rest,
             (Container_get C TOKENS_UnitOfWork w).1 = Return uow
             ∧ tr = returned (CallContainerGet TOKENS_UnitOfWork) :: rest
             ∧ ((∃ e rb,
                   rest = [threw (CallBeginTransaction uow) e;
                           {| call := CallRollback uow; thrown := rb |}])
                ∨ (∃ e rb,
                     rest = [returned (CallBeginTransaction uow);
                             threw (CallContainerGet token) e;
                             {| call := CallRollback uow; thrown := rb |}])
                ∨ (∃ handler e rb,
                     rest = [returned (CallBeginTransaction uow);
                             returned (CallContainerGet token);
                             threw (CallHandle handler command) e;
                             {| call := CallRollback uow; thrown := rb |}])
                ∨ (∃ handler e rb,
                     rest = [returned (CallBeginTransaction uow);
                             returned (CallContainerGet token);
                             returned (CallHandle handler command);
                             threw (CallCommit uow) e;
                             {| call := CallRollback uow; thrown := rb |}])
                ∨ (∃ handler,
                     rest = [returned (CallBeginTransaction uow);
                             returned (CallContainerGet token);
                             returned (CallHandle handler command);
                             returned (CallCommit uow)]))).
Proof.
  intros tr. subst tr. bus_unfold.
  destruct (handlerMap !! class_ref (constructor command)) as [token|];
    simpl; [|by left].
  right. exists token. split; [done|].
  destruct (Container_get C TOKENS_UnitOfWork w) as [[uow|e] w1] eqn:Hget;
    simpl; [|left; eauto].
  right.
  bus_cases;
    (eexists uow, _; split; [done|]; split; [reflexivity|]);
    unfold threw, returned; pick_case.
Qed.

(** X2.  A query execution makes at most two calls: the lookup of the handler
    registered for the query's constructor, then [handle] with the query
    itself on what the lookup returned; it stops at the first that
    throws. *)
Theorem QueryBus_execute_protocol handlerMap query w :
  let tr := history_of (QueryBus.execute C handlerMap query) w in
  (handlerMap !! class_ref (constructor query) = None ∧ tr = [])
  ∨ ∃ token,
      handlerMap !! class_ref (constructor query) = Some token
      ∧ ((∃ e, (Container_get C token w).1 = Throw e
               ∧ tr = [threw (CallContainerGet token) e])
         ∨ ∃ handler,
             (Container_get C token w).1 = Return handler
             ∧ ((∃ e, tr = [returned (CallContainerGet token);
                            threw (CallHandle handler query) e])
                ∨ tr = [returned (CallContainerGet token);
                        returned (CallHandle handler query)])).
Proof.
  intros tr. subst tr. bus_unfold.
  destruct (handlerMap !! class_ref (constructor query)) as [token|];
    simpl; [|by left].
  right. exists token. split; [done|].
  destruct (Container_get C token w) as [[handler|e] w1] eqn:Hget;
    simpl; [|left; exists e; split; [done|]; by destruct e].
  right. exists handler. split; [done|].
  bus_cases; unfold threw, returned; pick_case.
Qed.

(** ** What a result tells the caller *)

(** X3.  [CommandBus.execute] returns [Success(value)] exactly when the type is
    registered and the five calls all return one after the other in the
    world the previous one left, [handle] with [value]: a [Success] is
    never reported without a [commit] that returned. *)
Theorem CommandBus_execute_Success_iff handlerMap command (value : V) w0 :
  result_of (CommandBus.execute C TOKENS_UnitOfWork handlerMap command) w0
  = Return (Success value)
  ↔ ∃ handlerToken uow handler w1 w2 w3 w4 w5,
      handlerMap !! class_ref (constructor command) = Some handlerToken
      ∧ Container_get C TOKENS_UnitOfWork w0 = (Return uow, w1)
      ∧ beginTransaction C uow w1 = (Return (), w2)
      ∧ Container_get C handlerToken w2 = (Return handler, w3)
      ∧ handle C handler command w3 = (Return value, w4)
      ∧ commit C uow w4 = (Return (), w5).
Proof.
  split.
  - bus_unfold.
    destruct (handlerMap !! class_ref (constructor command)) as [token|];
      simpl; [|done].
    bus_cases; intros [= <-]. eexists _, _, _, _, _, _, _, _.
    repeat split; eassumption.
  - intros (token & uow & handler & w1 & w2 & w3 & w4 & w5
            & Hmap & Huow & Hbegin & Hget & Hhandle & Hcommit).
    bus_unfold. rewrite Hmap. simpl. rewrite Huow. simpl.
    rewrite Hbegin. simpl. rewrite Hget. simpl. rewrite Hhandle. simpl.
    by rewrite Hcommit.
Qed.

(** X4.  [QueryBus.execute] returns [Success(value)] exactly when the type is
    registered, the handler lookup returns and [handle] returns [value]. *)
Theorem QueryBus_execute_Success_iff handlerMap query (value : V) w0 :
  result_of (QueryBus.execute C handlerMap query) w0 = Return (Success value)
  ↔ ∃ handlerToken handler w1 w2,
      handlerMap !! class_ref (constructor query) = Some handlerToken
      ∧ Container_get C handlerToken w0 = (Return handler, w1)
      ∧ handle C handler query w1 = (Return value, w2).
Proof.
  split.
  - bus_unfold.
    destruct (handlerMap !! class_ref (constructor query)) as [token|];
      simpl; [|done].
    bus_cases; intros [= <-]. eexists _, _, _, _.
    repeat split; eassumption.
  - intros (token & handler & w1 & w2 & Hmap & Hget & Hhandle).
    bus_unfold. rewrite Hmap. simpl. rewrite Hget. simpl.
    by rewrite Hhandle.
Qed.

(** X5.  When [CommandBus.execute] returns a [Failure], either the bus called
    nothing (the type is not registered) or its last call is a [rollback]
    that returned; and no [commit] has returned. *)
Theorem CommandBus_execute_Failure_rolled_back handlerMap command (e : HttpError) w :
  let m := CommandBus.execute C TOKENS_UnitOfWork handlerMap command in
  result_of m w = Return (Failure e) ->
  (history_of m w = []
   ∨ ∃ uow, last (history_of m w) = Some (returned (CallRollback uow)))
  ∧ ∀ uow, returned (CallCommit uow) ∉ history_of m w.
Proof.
  intros m. subst m. bus_unfold.
  destruct (handlerMap !! class_ref (constructor command)) as [token|];
    simpl.
  - bus_cases; intros [=]; subst;
      (split; [right; eexists; reflexivity|]);
      intros uow' Hin; not_in_history Hin.
  - intros _. split; [by left|]. intros uow' Hin. not_in_history Hin.
Qed.

(** X6.  The buses themselves only ever produce the code 500 with the title
    "Internal Server Error": a [Failure] with anything else is an
    [HttpError] that one of the calls threw, handed on as it was. *)
Theorem execute_Failure_provenance handlerMap request (e : HttpError) w :
  (result_of (CommandBus.execute C TOKENS_UnitOfWork handlerMap request) w
   = Return (Failure e) ->
   (code e = 500%Z ∧ title e = "Internal Server Error")
   ∨ ∃ c, threw c (ThrowHttpError e)
          ∈ history_of
              (CommandBus.execute C TOKENS_UnitOfWork handlerMap request) w)
  ∧ (result_of (QueryBus.execute C handlerMap request) w
     = Return (Failure e) ->
     (code e = 500%Z ∧ title e = "Internal Server Error")
     ∨ ∃ c, threw c (ThrowHttpError e)
            ∈ history_of (QueryBus.execute C handlerMap request) w).
Proof.
  split; bus_unfold;
    (destruct (handlerMap !! class_ref (constructor request)) as [token|];
     simpl; [|intros [= <-]; by left]);
    bus_cases; intros [= <-];
    first [by left | right; eexists; unfold threw; in_history].
Qed.

(** ** Bootstrap and dispatch together *)

(** X10.  A request whose constructor the bootstrap list does not name is turned
    down by both buses without any call, whatever the list holds.  Keys
    are constructor identities: a registered constructor of the same
    [name] does not help, and the message then names a type that looks
    registered. *)
Theorem execute_type_not_bootstrapped
    (mappings : list (Class * symbol)) request w :
  class_ref (constructor request) ∉ registered_types mappings ->
  run (CommandBus.execute C TOKENS_UnitOfWork (createHandlerMap mappings)
         request) w
  = (Return (Failure (internal_server_error
       ("No command handler found for " ++ name (constructor request)))),
     (w, []))
  ∧ run (QueryBus.execute C (createHandlerMap mappings) request) w
  = (Return (Failure (internal_server_error
       ("No query handler found for " ++ name (constructor request)))),
     (w, [])).
Proof.
  intros Hk. apply createHandlerMap_lookup_unregistered in Hk.
  bus_unfold. by rewrite Hk.
Qed.

(** X11.  A request whose constructor the bootstrap list names is dispatched to
    the token of the last pair that names it: the query bus starts with the
    container lookup of that token, and the command bus starts with the
    lookup of the Unit of Work and looks up no token but these two. *)
Theorem execute_dispatches_last_registration
    (before after : list (Class * symbol)) request (token : symbol) w :
  class_ref (constructor request) ∉ registered_types after ->
  let handlerMap :=
    createHandlerMap (before ++ (constructor request, token) :: after) in
  head (calls_of (QueryBus.execute C handlerMap request) w)
  = Some (CallContainerGet token)
  ∧ head (calls_of
            (CommandBus.execute C TOKENS_UnitOfWork handlerMap request) w)
    = Some (CallContainerGet TOKENS_UnitOfWork)
  ∧ Forall (fun c =>
      match c with
      | CallContainerGet t => t = TOKENS_UnitOfWork ∨ t = token
      | _ => True
      end)
      (calls_of (CommandBus.execute C TOKENS_UnitOfWork handlerMap request) w).
Proof.
  intros Hafter handlerMap. subst handlerMap.
  pose proof (createHandlerMap_lookup_registered before after _ token Hafter)
    as Hmap.
  bus_unfold. rewrite Hmap. simpl.
  split; [|split]; bus_cases; try reflexivity;
    repeat (constructor; [first [exact I | by left | by right]|]);
    constructor.
Qed.

End Protocol.

(** ** Concrete runs of the further properties *)

(** Scenario B: the [Failure] comes after a rollback that returned. *)
Lemma CommandBus_execute_db_down_rolled_back :
  let m := CommandBus.execute (scripted handler_throws_db_down)
             UnitOfWork_token bootstrap create_user in
  (history_of m 0 = []
   ∨ ∃ uow, last (history_of m 0) = Some (returned (CallRollback uow)))
  ∧ ∀ uow, returned (CallCommit uow) ∉ history_of m 0.
Proof.
  exact (CommandBus_execute_Failure_rolled_back
           (scripted handler_throws_db_down) UnitOfWork_token bootstrap
           create_user (internal_server_error "db down") 0 eq_refl).
Defined.

(** Scenario D: the 404 of the [Failure] is the [HttpError] the handler
    threw. *)
Lemma execute_not_found_provenance :
  (∃ c, threw c (ThrowHttpError not_found)
        ∈ history_of
            (CommandBus.execute (scripted handler_throws_not_found)
               UnitOfWork_token bootstrap create_user) 0)
  ∧ (∃ c, threw c (ThrowHttpError not_found)
          ∈ history_of
              (QueryBus.execute (scripted handler_throws_not_found)
                 bootstrap_all get_user) 0).
Proof.
  split.
  - destruct (proj1 (execute_Failure_provenance
                       (scripted handler_throws_not_found) UnitOfWork_token
                       bootstrap create_user not_found 0) eq_refl)
      as [[Hcode _]|Hin]; [discriminate Hcode|exact Hin].
  - destruct (proj2 (execute_Failure_provenance
                       (scripted handler_throws_not_found) UnitOfWork_token
                       bootstrap_all get_user not_found 0) eq_refl)
      as [[Hcode _]|Hin]; [discriminate Hcode|exact Hin].
Defined.

(** A command built by another constructor named "CreateUser" is turned
    down although a "CreateUser" is registered. *)
Lemma execute_same_name_other_constructor :
  let command := {| constructor := CreateUser'; payload := "alice" |} in
  run (CommandBus.execute (scripted all_succeed) UnitOfWork_token
         bootstrap_all command) 0
  = (Return (Failure
       {| code := 500; title := "Internal Server Error";
          detail := "No command handler found for CreateUser" |}),
     (0, []))
  ∧ run (QueryBus.execute (scripted all_succeed) bootstrap_all command) 0
  = (Return (Failure
       {| code := 500; title := "Internal Server Error";
          detail := "No query handler found for CreateUser" |}),
     (0, [])).
Proof.
  apply (execute_type_not_bootstrapped (scripted all_succeed)
           UnitOfWork_token
           [(CreateUser, CreateUserHandler_token);
            (GetUser, GetUserHandler_token)]
           {| constructor := CreateUser'; payload := "alice" |} 0).
  compute_done.
Defined.

(** [CreateUser] registered twice: the later token is the one looked up. *)
Lemma execute_CreateUser_registered_twice :
  let handlerMap :=
    createHandlerMap
      [(CreateUser, GetUserHandler_token); (CreateUser, CreateUserHandler_token);
       (GetUser, GetUserHandler_token)] in
  head (calls_of (QueryBus.execute (scripted all_succeed) handlerMap
                    create_user) 0)
  = Some (CallContainerGet CreateUserHandler_token)
  ∧ head (calls_of (CommandBus.execute (scripted all_succeed)
                      UnitOfWork_token handlerMap create_user) 0)
    = Some (CallContainerGet UnitOfWork_token)
  ∧ Forall (fun c =>
      match c with
      | CallContainerGet t => t = UnitOfWork_token ∨ t = CreateUserHandler_token
      | _ => True
      end)
      (calls_of (CommandBus.execute (scripted all_succeed)
                   UnitOfWork_token handlerMap create_user) 0).
Proof.
  apply (execute_dispatches_last_registration (scripted all_succeed)
           UnitOfWork_token [(CreateUser, GetUserHandler_token)]
           [(GetUser, GetUserHandler_token)] create_user
           CreateUserHandler_token 0).
  compute_done.
Defined.

(** ** Further runs on which the specification's wording fails *)

(** C7 as stated fails on a handler map that registers the query under
    [TOKENS.UnitOfWork]: the query bus asks the container for the Unit of
    Work and gets it. *)
Lemma query_bus_acquires_unit_of_work :
  let m := QueryBus.execute (scripted uow_as_handler) bootstrap_uow_token
             get_user in
  calls_of m 0
  = [CallContainerGet UnitOfWork_token; CallHandle the_uow get_user]
  ∧ Container_get (scripted uow_as_handler) UnitOfWork_token 0
    = (Return the_uow, 1)
  ∧ ¬ (CallContainerGet UnitOfWork_token ∉ calls_of m 0).
Proof.
  split; [reflexivity|]. split; [reflexivity|].
  intros Hnot. apply Hnot. apply list_elem_of_here.
Qed.

(** C10 as stated fails outside the [try] block: a string thrown by the
    Unit-of-Work lookup, or by [rollback], is not discarded and no
    [Failure] is returned; [execute] raises that very string. *)
Lemma thrown_string_escapes :
  result_of (CommandBus.execute (scripted container_throws_string)
               UnitOfWork_token bootstrap create_user) 0
  = Throw (ThrowValue (JsString "no container"))
  ∧ result_of (CommandBus.execute (scripted rollback_throws_string)
                 UnitOfWork_token bootstrap create_user) 0
    = Throw (ThrowValue (JsString "rollback failed")).
Proof. split; reflexivity. Qed.

(** An object made by [Object.create(null)] as a command or query: both
    buses raise, and call nothing. *)
Example execute_any_NoConstructor :
  run (CommandBus.execute_any (V := Z) (scripted all_succeed) UnitOfWork_token
         bootstrap_all (NoConstructor "alice")) 0
  = (Throw (ThrowError "Cannot read properties of undefined (reading 'name')"),
     (0, []))
  ∧ run (QueryBus.execute_any (V := Z) (scripted all_succeed) bootstrap_all
           (NoConstructor "alice")) 0
    = (Throw (ThrowError "Cannot read properties of undefined (reading 'name')"),
       (0, [])).
Proof. split; reflexivity. Qed.
